(** * PB86 8-button schematic: the PDF renderer of
      hardware/schematics/generate_schematic_pdf.py

    The script is one straight-line function, [create_schematic_pdf], that
    issues a fixed sequence of reportlab canvas calls while it moves a
    vertical cursor [y] down the page, saves the canvas and prints a
    confirmation line.

    Embedding.
    - Python floats are IEEE binary64 numbers: they are Rocq's primitive
      floats, and every coordinate is computed with the very operations of
      the source, in the source's order.  Integer literals multiplied with a
      float ([1*inch]) are promoted by Python to the same binary64 value the
      float literal [1] denotes.
    - Python [str] values are UTF-8 encoded [string]s.
    - The function body is written in a small monad, [Script]: a state
      monad over the local variable [y] that also records the library calls
      the function makes, in order.  No call of the function returns a value
      the function inspects, so the calls it makes do not depend on what the
      library does.
    - The library (reportlab's canvas, the file system, standard output) is
      a transition system on a [World]; [exec] runs a recorded sequence of
      calls on it and stops at the first call that raises, as Python does
      when no handler is installed. *)

From Stdlib Require Import Floats.PrimFloat.
From Stdlib Require Import ZArith List String Lia.
From stdpp Require Import base option list strings gmap.
Import ListNotations.

Set Warnings "-inexact-float".

(** ** reportlab constants *)

(** Modelled from the spec: [reportlab.lib.units] is not part of the
    sources.  The canvas is addressed in points, 72 to the inch, and
    reportlab derives the metric units from the inch. *)
Module units.
Definition inch : float := 72.0%float.
Definition cm : float := (inch / 2.54)%float.
Definition mm : float := (cm * 0.1)%float.
End units.

(** Modelled from the spec: [reportlab.lib.pagesizes] is not part of the
    sources.  A4 is 210mm by 297mm, about 595 by 842 points. *)
Module pagesizes.
Definition A4 : float * float :=
  ((210 * units.mm)%float, (297 * units.mm)%float).
End pagesizes.

(** ** The canvas *)

Definition RGB : Type := float * float * float.

(** Modelled from the spec: [reportlab.lib.colors.black]. *)
Definition black : RGB := (0%float, 0%float, 0%float).

(** What ends up on a page: a string placed with the font and fill color in
    force when it was drawn, or a stroked line. *)
Record Text : Type := mkText {
  t_x : float;
  t_y : float;
  t_font : string;
  t_size : Z;
  t_fill : RGB;
  t_text : string
}.

Inductive Op : Type :=
| OpText (t : Text)
| OpLine (x1 y1 x2 y2 : float) (stroke : RGB) (width : Z).

Record Page : Type := mkPage {
  page_size : float * float;
  page_ops : list Op
}.

(** Modelled from the spec: reportlab's [Canvas] object is not part of the
    sources.  It holds the target file name, the page size, the graphics
    state (font, fill and stroke color, line width), the operations of the
    page under construction and the pages already finished.  A new canvas
    starts with the default black fill. *)
Record CanvasState : Type := mkCanvas {
  cv_filename : string;
  cv_pagesize : float * float;
  cv_font : string;
  cv_fontsize : Z;
  cv_fill : RGB;
  cv_stroke : RGB;
  cv_linewidth : Z;
  cv_code : list Op;
  cv_pages : list Page
}.

Definition new_canvas (filename : string) (pagesize : float * float) : CanvasState :=
  {| cv_filename := filename; cv_pagesize := pagesize;
     cv_font := "Helvetica"; cv_fontsize := 12;
     cv_fill := black; cv_stroke := black; cv_linewidth := 1;
     cv_code := []; cv_pages := [] |}.

(** The calls the script makes: the canvas constructor, the canvas methods
    it uses, and the builtin [print]. *)
Inductive Call : Type :=
| CanvasNew (filename : string) (pagesize : float * float)
| SetFont (psfontname : string) (size : Z)
| DrawString (x y : float) (text : string)
| SetStrokeColor (c : RGB)
| SetLineWidth (w : Z)
| Line (x1 y1 x2 y2 : float)
| SetFillColorRGB (r g b : float)
| Save
| Print (s : string).

(** ** The script monad: the local [y] and the calls made so far *)

Definition Script (A : Type) : Type := float -> A * float * list Call.

#[global] Instance Script_ret : MRet Script :=
  fun A a y => (a, y, []).

#[global] Instance Script_bind : MBind Script :=
  fun A B f m y =>
    let '(a, y1, t1) := m y in
    let '(b, y2, t2) := f a y1 in
    (b, y2, t1 ++ t2).

Definition call (c : Call) : Script unit := fun y => (tt, y, [c]).
Definition get_y : Script float := fun y => (y, y, []).
Definition set_y (v : float) : Script unit := fun _ => (tt, v, []).

(** [for x in l: body] *)
Fixpoint for_ {A : Type} (l : list A) (body : A -> Script unit) : Script unit :=
  match l with
  | [] => mret tt
  | x :: l' => body x;; for_ l' body
  end.

(** [canvas.Canvas(filename, pagesize=...)] returns the canvas that the
    source binds to [c]; it is the only canvas of the run, so calls do not
    name their receiver. *)
Module canvas.
Definition Canvas (filename : string) (pagesize : float * float) : Script unit :=
  call (CanvasNew filename pagesize).
End canvas.

Module c.
Definition setFont (psfontname : string) (size : Z) : Script unit :=
  call (SetFont psfontname size).
Definition drawString (x y : float) (text : string) : Script unit :=
  call (DrawString x y text).
Definition setStrokeColor (col : RGB) : Script unit :=
  call (SetStrokeColor col).
Definition setLineWidth (w : Z) : Script unit :=
  call (SetLineWidth w).
Definition line (x1 y1 x2 y2 : float) : Script unit :=
  call (Line x1 y1 x2 y2).
Definition setFillColorRGB (r g b : float) : Script unit :=
  call (SetFillColorRGB r g b).
Definition save : Script unit := call Save.
End c.

Definition print (s : string) : Script unit := call (Print s).

(** ** The source: generate_schematic_pdf.py *)

Definition overview : list string := [
  "This circuit implements 8 PB86 push buttons with built-in LEDs.";
  "";
  "Components:";
  "  - MCP23017: I2C I/O Expander (button inputs)";
  "  - 74HC595: 8-bit Shift Register (LED outputs)";
  "  - 8x PB86: Push buttons with LEDs";
  "  - 8x 150Ω: Current limiting resistors";
  "";
  "Interfaces:";
  "  - I2C: SDA, SCL (MCP23017 control)";
  "  - SPI: DATA, LATCH, CLOCK (74HC595 control)"
].

Definition button_circuit : list string := [
  "     +5V";
  "      │";
  "      │  (100kΩ internal pull-up)";
  "      │";
  "      ├─────── GPB0 (MCP23017)";
  "      │";
  "     ─┴─  PB86 Button";
  "      │  (Pins 1-2: NO switch)";
  "      │";
  "     GND"
].

Definition led_circuit : list string := [
  "      QA (74HC595)";
  "       │";
  "       │";
  "      ─┴─  R1 (150Ω)";
  "       │";
  "       │";
  "      ─┴─  LED1 Anode (+)";
  "       │";
  "      ─┴─  LED1 Cathode (-)";
  "       │";
  "      GND"
].

Definition component_values : list string := [
  "Resistors:";
  "  R1-R8: 150Ω, 1/4W, 5% (current limiting)";
  "  Pull-ups: 100kΩ (MCP23017 internal)";
  "";
  "LEDs:";
  "  D1-D8: Red LED, 20mA max, Vf ≈ 2.0V";
  "";
  "ICs:";
  "  MCP23017: I2C I/O Expander (DIP-28)";
  "  74HC595: 8-bit Shift Register (DIP-16)"
].

Definition circuit_analysis : list string := [
  "LED Current:";
  "  I_LED = (V_CC - V_LED) / R_total";
  "  I_LED = (5V - 2V) / 200Ω = 15mA ✅";
  "";
  "Power Consumption:";
  "  Per LED: 15mA";
  "  All LEDs ON: 8 × 15mA = 120mA";
  "  Total: ~120.4mA ✅";
  "";
  "Button Detection:";
  "  Released: 5V (through pull-up)";
  "  Pressed: 0V (connected to GND)"
].

Definition validation : list string := [
  "✅ SPICE simulation completed";
  "✅ LED current: 15mA (safe)";
  "✅ Power consumption: ~120mA (acceptable)";
  "✅ Button detection: 5V/0V logic (reliable)";
  "✅ Circuit ready for breadboard prototype"
].

Definition next_steps : list string := [
  "1. Build breadboard prototype";
  "2. Test button detection and LED control";
  "3. Write firmware for MCP23017/74HC595";
  "4. Design PCB layout in KiCad"
].

Section Source.
Import units pagesizes.
Local Open Scope float_scope.

(** [def create_schematic_pdf(filename)] *)
Definition create_schematic_pdf (filename : string) : Script unit :=
  canvas.Canvas filename A4;;
  let '(width, height) := A4 in

  (* Title *)
  c.setFont "Helvetica-Bold" 16;;
  c.drawString (1*inch) (height - 1*inch) "PB86 8-Button Circuit Schematic";;

  (* Subtitle *)
  c.setFont "Helvetica" 12;;
  c.drawString (1*inch) (height - 1.3*inch)
    "SPICE Validated: LED current 15mA, Power 120mA total";;
  c.drawString (1*inch) (height - 1.5*inch) "Date: January 16, 2026";;

  (* Divider line *)
  c.setStrokeColor black;;
  c.setLineWidth 2;;
  c.line (1*inch) (height - 1.7*inch) (width - 1*inch) (height - 1.7*inch);;

  (* Circuit Overview Section *)
  set_y (height - 2.2*inch);;
  c.setFont "Helvetica-Bold" 14;;
  y ← get_y; c.drawString (1*inch) y "CIRCUIT OVERVIEW";;

  y ← get_y; set_y (y - 0.4*inch);;
  c.setFont "Helvetica" 10;;
  for_ overview (fun line =>
    y ← get_y; c.drawString (1.2*inch) y line;;
    y ← get_y; set_y (y - 0.25*inch));;

  (* Button Input Circuit Section *)
  y ← get_y; set_y (y - 0.3*inch);;
  c.setFont "Helvetica-Bold" 14;;
  y ← get_y; c.drawString (1*inch) y "BUTTON INPUT CIRCUIT";;

  y ← get_y; set_y (y - 0.4*inch);;
  c.setFont "Courier" 10;;
  for_ button_circuit (fun line =>
    y ← get_y; c.drawString (1.2*inch) y line;;
    y ← get_y; set_y (y - 0.2*inch));;

  (* LED Output Circuit Section *)
  y ← get_y; set_y (y - 0.3*inch);;
  c.setFont "Helvetica-Bold" 14;;
  y ← get_y; c.drawString (1*inch) y "LED OUTPUT CIRCUIT";;

  y ← get_y; set_y (y - 0.4*inch);;
  c.setFont "Courier" 10;;
  for_ led_circuit (fun line =>
    y ← get_y; c.drawString (1.2*inch) y line;;
    y ← get_y; set_y (y - 0.2*inch));;

  (* Component Values Section *)
  y ← get_y; set_y (y - 0.3*inch);;
  c.setFont "Helvetica-Bold" 14;;
  y ← get_y; c.drawString (1*inch) y "COMPONENT VALUES";;

  y ← get_y; set_y (y - 0.4*inch);;
  c.setFont "Helvetica" 10;;
  for_ component_values (fun line =>
    y ← get_y; c.drawString (1.2*inch) y line;;
    y ← get_y; set_y (y - 0.25*inch));;

  (* Circuit Analysis Section *)
  y ← get_y; set_y (y - 0.3*inch);;
  c.setFont "Helvetica-Bold" 14;;
  y ← get_y; c.drawString (1*inch) y "CIRCUIT ANALYSIS";;

  y ← get_y; set_y (y - 0.4*inch);;
  c.setFont "Helvetica" 10;;
  for_ circuit_analysis (fun line =>
    y ← get_y; c.drawString (1.2*inch) y line;;
    y ← get_y; set_y (y - 0.25*inch));;

  (* Validation Status Section *)
  y ← get_y; set_y (y - 0.3*inch);;
  c.setFont "Helvetica-Bold" 14;;
  y ← get_y; c.drawString (1*inch) y "VALIDATION STATUS";;

  y ← get_y; set_y (y - 0.4*inch);;
  c.setFont "Helvetica" 10;;
  c.setFillColorRGB 0 0.5 0;;  (* Green color *)
  for_ validation (fun line =>
    y ← get_y; c.drawString (1.2*inch) y line;;
    y ← get_y; set_y (y - 0.25*inch));;

  c.setFillColorRGB 0 0 0;;  (* Reset to black *)

  (* Next Steps Section *)
  y ← get_y; set_y (y - 0.3*inch);;
  c.setFont "Helvetica-Bold" 14;;
  y ← get_y; c.drawString (1*inch) y "NEXT STEPS";;

  y ← get_y; set_y (y - 0.4*inch);;
  c.setFont "Helvetica" 10;;
  for_ next_steps (fun line =>
    y ← get_y; c.drawString (1.2*inch) y line;;
    y ← get_y; set_y (y - 0.25*inch));;

  (* Footer *)
  c.setFont "Helvetica" 8;;
  c.drawString (1*inch) (0.5*inch) "Generated with Claude Code via Happy Engineering";;
  c.drawString (width - 2.5*inch) (0.5*inch) "Page 1 of 1";;

  c.save;;
  print ("PDF created: " +:+ filename).

(** [if __name__ == "__main__": ...] *)
Definition main : Script unit :=
  create_schematic_pdf "pb86_8button_schematic.pdf".

End Source.

(** The calls a script makes and the value it leaves in [y], started with
    [y0] in the (not yet assigned) local. *)
Definition calls {A : Type} (m : Script A) (y0 : float) : list Call := snd (m y0).
Definition final_y {A : Type} (m : Script A) (y0 : float) : float := snd (fst (m y0)).

(** ** The library: what a call does *)

(** Modelled from the spec: the canvas methods are not part of the sources.
    A method of the graphics state replaces the field it names; a drawing
    method appends to the page under construction, with the graphics state
    of that moment. *)
Definition draw (c : Call) (cv : CanvasState) : CanvasState :=
  match c with
  | SetFont f s =>
      mkCanvas (cv_filename cv) (cv_pagesize cv) f s (cv_fill cv)
               (cv_stroke cv) (cv_linewidth cv) (cv_code cv) (cv_pages cv)
  | DrawString x y s =>
      mkCanvas (cv_filename cv) (cv_pagesize cv) (cv_font cv) (cv_fontsize cv)
               (cv_fill cv) (cv_stroke cv) (cv_linewidth cv)
               (cv_code cv ++ [OpText (mkText x y (cv_font cv) (cv_fontsize cv) (cv_fill cv) s)])
               (cv_pages cv)
  | SetStrokeColor col =>
      mkCanvas (cv_filename cv) (cv_pagesize cv) (cv_font cv) (cv_fontsize cv)
               (cv_fill cv) col (cv_linewidth cv) (cv_code cv) (cv_pages cv)
  | SetLineWidth w =>
      mkCanvas (cv_filename cv) (cv_pagesize cv) (cv_font cv) (cv_fontsize cv)
               (cv_fill cv) (cv_stroke cv) w (cv_code cv) (cv_pages cv)
  | Line x1 y1 x2 y2 =>
      mkCanvas (cv_filename cv) (cv_pagesize cv) (cv_font cv) (cv_fontsize cv)
               (cv_fill cv) (cv_stroke cv) (cv_linewidth cv)
               (cv_code cv ++ [OpLine x1 y1 x2 y2 (cv_stroke cv) (cv_linewidth cv)])
               (cv_pages cv)
  | SetFillColorRGB r g b =>
      mkCanvas (cv_filename cv) (cv_pagesize cv) (cv_font cv) (cv_fontsize cv)
               (r, g, b) (cv_stroke cv) (cv_linewidth cv) (cv_code cv) (cv_pages cv)
  | CanvasNew _ _ | Save | Print _ => cv
  end.

Definition is_drawing (c : Call) : bool :=
  match c with
  | CanvasNew _ _ | Save | Print _ => false
  | _ => true
  end.

(** Modelled from the spec: [showPage] closes the page under construction
    and starts an empty one with a fresh graphics state. *)
Definition showPage (cv : CanvasState) : CanvasState :=
  mkCanvas (cv_filename cv) (cv_pagesize cv) "Helvetica" 12 black black 1 []
           (cv_pages cv ++ [mkPage (cv_pagesize cv) (cv_code cv)]).

(** Modelled from the spec: [save] first closes the page under construction
    when something was drawn on it, then writes the document. *)
Definition finish (cv : CanvasState) : CanvasState :=
  match cv_code cv with
  | [] => cv
  | _ :: _ => showPage cv
  end.

(** The exceptions that can reach the function. *)
Inductive exn : Type :=
| OSError (msg : string)
| RenderError (msg : string)
| NameError (name : string).

(** What the function does not control: whether the file system lets a path
    be opened for writing, and whether the [n]-th library call of the run
    fails in the drawing backend. *)
Record Env : Type := mkEnv {
  open_wb : string -> option exn;
  lib_fault : nat -> option exn
}.

Record World : Type := mkWorld {
  canvas_obj : option CanvasState;
  fs : gmap string (list Page);
  stdout : list string
}.

Definition set_canvas (cv : CanvasState) (w : World) : World :=
  mkWorld (Some cv) (fs w) (stdout w).

Inductive Outcome : Type :=
| Returned
| Raised (e : exn).

(** One call, the [n]-th of the run.  A library call can fail in the
    backend, and [save] when the file cannot be opened for writing; [print]
    appends its line to the standard output.  A call that raises leaves the
    world as it found it. *)
Definition step (env : Env) (n : nat) (c : Call) (w : World) : exn + World :=
  match c with
  | Print s => inr (mkWorld (canvas_obj w) (fs w) (stdout w ++ [s]))
  | _ =>
    match lib_fault env n with
    | Some e => inl e
    | None =>
      match c with
      | CanvasNew filename pagesize => inr (set_canvas (new_canvas filename pagesize) w)
      | Save =>
        match canvas_obj w with
        | None => inl (NameError "c")
        | Some cv =>
          match open_wb env (cv_filename cv) with
          | Some e => inl e
          | None =>
            let cv' := finish cv in
            inr (mkWorld (Some cv') (<[cv_filename cv := cv_pages cv']> (fs w)) (stdout w))
          end
        end
      | _ =>
        match canvas_obj w with
        | None => inl (NameError "c")
        | Some cv => inr (set_canvas (draw c cv) w)
        end
      end
    end
  end.

(** Python runs the calls in order and, with no handler installed, stops at
    the first one that raises. *)
Fixpoint exec (env : Env) (n : nat) (cs : list Call) (w : World) : World * Outcome :=
  match cs with
  | [] => (w, Returned)
  | c :: cs' =>
    match step env n c w with
    | inl e => (w, Raised e)
    | inr w' => exec env (S n) cs' w'
    end
  end.

Definition run (env : Env) (m : Script unit) (y0 : float) (w : World) : World * Outcome :=
  exec env 0 (calls m y0) w.

(** The canvas a sequence of calls leaves behind when none of them fails:
    what each call does to the canvas the source holds in [c]. *)
Definition effect (cv : option CanvasState) (c : Call) : option CanvasState :=
  match c with
  | CanvasNew filename pagesize => Some (new_canvas filename pagesize)
  | Save => finish <$> cv
  | Print _ => cv
  | _ => draw c <$> cv
  end.

Definition build (cs : list Call) (cv : option CanvasState) : option CanvasState :=
  fold_left effect cs cv.

(** The pages of the document a script hands to [save]. *)
Definition pages_of (m : Script unit) (y0 : float) : list Page :=
  match build (calls m y0) None with
  | Some cv => cv_pages cv
  | None => []
  end.

(** ** Vocabulary of the claims *)

Definition texts (ops : list Op) : list Text :=
  omap (fun o => match o with OpText t => Some t | OpLine _ _ _ _ _ _ => None end) ops.

(** Every string the renderer draws, in drawing order, with its position,
    font and fill color. *)
Definition drawn (filename : string) (y0 : float) : list Text :=
  texts (concat (map page_ops (pages_of (create_schematic_pdf filename) y0))).

Definition drawn_strings (filename : string) (y0 : float) : list string :=
  map t_text (drawn filename y0).

Definition headings : list string := [
  "CIRCUIT OVERVIEW"; "BUTTON INPUT CIRCUIT"; "LED OUTPUT CIRCUIT";
  "COMPONENT VALUES"; "CIRCUIT ANALYSIS"; "VALIDATION STATUS"; "NEXT STEPS"
].

(** [contains needle hay]: Python's [needle in hay]. *)
Fixpoint contains (needle hay : string) : bool :=
  String.prefix needle hay ||
  match hay with
  | EmptyString => false
  | String _ hay' => contains needle hay'
  end.

(** How often a string occurs among the drawn ones, as a whole string and
    as a part of one. *)
Definition occurrences (s : string) (l : list string) : nat :=
  length (filter (eq s) l).

Definition mentions (needle : string) (l : list string) : list string :=
  filter (fun hay => contains needle hay = true) l.

Definition green : RGB := (0%float, 0.5%float, 0%float).

Definition literals : list string := ["15mA"; "120mA"; "150Ω"; "100kΩ"].

Definition is_fill_change (c : Call) : Prop :=
  match c with
  | SetFillColorRGB _ _ _ => True
  | _ => False
  end.

(** [c] draws the string [s], wherever it puts it. *)
Definition draws (c : Call) (s : string) : Prop :=
  match c with
  | DrawString _ _ s' => s' = s
  | _ => False
  end.

#[global] Instance draws_dec (c : Call) (s : string) : Decision (draws c s).
Proof. destruct c; simpl; apply _. Defined.

#[global] Instance is_fill_change_dec (c : Call) : Decision (is_fill_change c).
Proof. destruct c; simpl; apply _. Defined.

(** The layout rule in the words of the specification: seven sections, each
    a bold heading and body lines at a fixed indent; the two diagram
    sections in a fixed-width font with the smaller line height, the others
    in a proportional font with the larger one; an extra gap before each
    new heading. *)
Module layout_rule.
Import units.
Local Open Scope float_scope.

Record Section : Type := mkSection {
  heading : string;
  body : list string
}.

Definition sections : list Section := [
  mkSection "CIRCUIT OVERVIEW" overview;
  mkSection "BUTTON INPUT CIRCUIT" button_circuit;
  mkSection "LED OUTPUT CIRCUIT" led_circuit;
  mkSection "COMPONENT VALUES" component_values;
  mkSection "CIRCUIT ANALYSIS" circuit_analysis;
  mkSection "VALIDATION STATUS" validation;
  mkSection "NEXT STEPS" next_steps
].

Definition is_diagram (h : string) : bool :=
  bool_decide (h ∈ ["BUTTON INPUT CIRCUIT"; "LED OUTPUT CIRCUIT"]).

Definition body_font (h : string) : string :=
  if is_diagram h then "Courier" else "Helvetica".

Definition line_height (h : string) : float :=
  if is_diagram h then 0.2 * inch else 0.25 * inch.

Definition heading_gap : float := 0.3 * inch.
Definition heading_skip : float := 0.4 * inch.

(** A string with its place and font: what the rule determines of a
    drawn text (the fill color is another matter). *)
Definition Placed : Type := float * float * string * Z * string.

Definition placed (t : Text) : Placed :=
  (t_x t, t_y t, t_font t, t_size t, t_text t).

Fixpoint place_lines (font : string) (lh : float) (y : float) (lines : list string)
  : list Placed * float :=
  match lines with
  | [] => ([], y)
  | l :: lines' =>
      let '(rest, y') := place_lines font lh (y - lh) lines' in
      ((1.2 * inch, y, font, 10%Z, l) :: rest, y')
  end.

(** [y] is where the cursor stands; a heading other than the first one is
    set off from what precedes it by the gap. *)
Fixpoint place_sections (first : bool) (y : float) (secs : list Section)
  : list Placed :=
  match secs with
  | [] => []
  | s :: secs' =>
      let y := if first then y else y - heading_gap in
      let '(lines, y') :=
        place_lines (body_font (heading s)) (line_height (heading s))
                    (y - heading_skip) (body s) in
      ((1 * inch, y, "Helvetica-Bold", 14%Z, heading s) :: lines)
        ++ place_sections false y' secs'
  end.
End layout_rule.

(** ** The cursor and the page *)

(** Where the source first puts the cursor: [y = height - 2.2*inch]. *)
Definition cursor_start : float :=
  (snd pagesizes.A4 - 2.2 * units.inch)%float.

(** How far the cursor has moved down when the function is done. *)
Definition total_decrement (filename : string) (y0 : float) : float :=
  (cursor_start - final_y (create_schematic_pdf filename) y0)%float.

(** The page has its origin at the bottom left: a string placed at a
    negative [y] lies below the bottom edge. *)
Definition below_page (t : Text) : bool := PrimFloat.ltb (t_y t) 0.

Definition first_below_page (l : list Text) : option string :=
  t_text <$> List.find below_page l.

(** [a] and [b] differ by less than [tol]. *)
Definition within (tol a b : float) : bool :=
  PrimFloat.ltb (PrimFloat.abs (a - b)) tol.

(** ** Runs *)

(** The calls between the constructor and [save]. *)
Definition drawing_calls : list Call :=
  List.filter is_drawing (calls main 0%float).

(** The library calls of a run are numbered from 0: the constructor, the
    drawing calls, and [save], which comes last. *)
Definition save_index : nat := S (length drawing_calls).
Definition library_calls : nat := S save_index.

(** The exception the [k]-th library call of a run on [filename] meets, if
    any: a failure of the backend, or for [save] the refusal of the file
    system to open the file for writing. *)
Definition fails_at (env : Env) (filename : string) (k : nat) : option exn :=
  match lib_fault env k with
  | Some e => Some e
  | None => if decide (k = save_index) then open_wb env filename else None
  end.

(** What the renderer puts on its page. *)
Definition schematic_ops : list Op :=
  concat (map page_ops (pages_of main 0%float)).

Definition confirmation (filename : string) : string :=
  "PDF created: " +:+ filename.

(** A library that never fails, and one that refuses to open any file for
    writing; a world with no canvas, no file and nothing printed. *)
Definition env_ok : Env := mkEnv (fun _ => None) (fun _ => None).

Definition env_unwritable : Env :=
  mkEnv (fun _ => Some (OSError "Permission denied")) (fun _ => None).

Definition empty_world : World := mkWorld None ∅ [].

(** [print] is the one call that writes to standard output, [save] the one
    that writes a file. *)
Definition is_print (c : Call) : Prop :=
  match c with
  | Print _ => True
  | _ => False
  end.

Definition is_save (c : Call) : Prop :=
  match c with
  | Save => True
  | _ => False
  end.

(** A world in which the target file exists already and something was
    printed before. *)
Definition used_world : World :=
  mkWorld None {[ "pb86_8button_schematic.pdf" := [] ]} ["earlier output"].

(** ** The body loop and the page furniture *)

(** The loop the source writes once per section, with the line height [d]
    of the section: [for line in lines: c.drawString(1.2*inch, y, line);
    y -= d]. *)
Definition body_loop (d : float) (lines : list string) : Script unit :=
  for_ lines (fun line =>
    y ← get_y; c.drawString (1.2 * units.inch)%float y line;;
    y ← get_y; set_y (y - d)%float).

(** The cursor values of [n] rounds of the loop, started at [y]. *)
Fixpoint cursor_positions (d y : float) (n : nat) : list float :=
  match n with
  | O => []
  | S n' => y :: cursor_positions d (y - d)%float n'
  end.

(** Everything on the page of the document, in drawing order. *)
Definition page_content (filename : string) (y0 : float) : list Op :=
  concat (map page_ops (pages_of (create_schematic_pdf filename) y0)).

Definition is_line (o : Op) : bool :=
  match o with
  | OpLine _ _ _ _ _ _ => true
  | OpText _ => false
  end.

(** The strings of the top-to-bottom flow: all but the two footer strings,
    which are drawn last and at a fixed height. *)
Definition flow (filename : string) (y0 : float) : list Text :=
  take (length (drawn filename y0) - 2) (drawn filename y0).

(** Each string of the list lies at least [gap] below the one before. *)
Fixpoint spaced (gap : float) (ts : list Text) : bool :=
  match ts with
  | t1 :: ((t2 :: _) as rest) =>
      PrimFloat.leb gap (t_y t1 - t_y t2) && spaced gap rest
  | _ => true
  end.

(** A string made of 7-bit characters only. *)
Definition is_ascii (s : string) : bool :=
  forallb (fun a => Nat.ltb (Ascii.nat_of_ascii a) 128) (list_ascii_of_string s).

(** The height at which the [i]-th call of a sequence draws its string. *)
Definition drawn_at (cs : list Call) (i : nat) : float :=
  match cs !! i with
  | Some (DrawString _ y _) => y
  | _ => 0%float
  end.

(** The two strings of the footer. *)
Definition footer_strings : list string :=
  ["Generated with Claude Code via Happy Engineering"; "Page 1 of 1"].

(** The fonts reportlab has built in, as far as the renderer uses them, with
    the sizes it uses them in. *)
Definition type_faces : list (string * Z) := [
  ("Helvetica-Bold", 16%Z); ("Helvetica", 12%Z); ("Helvetica-Bold", 14%Z);
  ("Helvetica", 10%Z); ("Courier", 10%Z); ("Helvetica", 8%Z)
].

(** * Properties *)

(** ** Strings *)

Lemma prefix_split (p s : string) :
  String.prefix p s = true -> exists post, s = p +:+ post.
Proof.
  revert s. induction p as [|a p IH]; intros s H.
  - exists s. reflexivity.
  - destruct s as [|b s]; simpl in H; [discriminate|].
    destruct (Ascii.ascii_dec a b) as [->|]; [|discriminate].
    destruct (IH _ H) as [post ->]. exists post. reflexivity.
Qed.

Lemma contains_split (needle hay : string) :
  contains needle hay = true -> exists pre post, hay = pre +:+ needle +:+ post.
Proof.
  induction hay as [|a hay IH]; intros H.
  - change (String.prefix needle "" || false = true) in H.
    apply orb_true_iff in H as [H|H]; [|discriminate].
    destruct (prefix_split _ _ H) as [post E]. exists "", post. exact E.
  - change (String.prefix needle (String a hay) || contains needle hay = true) in H.
    apply orb_true_iff in H as [H|H].
    + destruct (prefix_split _ _ H) as [post E]. exists "", post. exact E.
    + destruct (IH H) as (pre & post & ->). exists (String a pre), post. reflexivity.
Qed.

Lemma mentioned_somewhere (needle : string) (l : list string) :
  existsb (contains needle) l = true ->
  exists s pre post, s ∈ l /\ s = pre +:+ needle +:+ post.
Proof.
  intros H. apply existsb_exists in H as (s & Hin & Hc).
  destruct (contains_split _ _ Hc) as (pre & post & E).
  exists s, pre, post. split; [by apply list_elem_of_In | exact E].
Qed.

Lemma green_not_black : green <> black.
Proof.
  intros H.
  assert (E : PrimFloat.ltb 0 (snd (fst green)) = PrimFloat.ltb 0 (snd (fst black)))
    by (rewrite H; reflexivity).
  vm_compute in E. discriminate E.
Qed.

(** ** What is drawn *)

(** C1: whatever the file name, the strings drawn contain each of the seven
    section headings exactly once, as a string of its own and as a part of
    any drawn string, and the headings come in the fixed order Circuit
    Overview, Button Input Circuit, LED Output Circuit, Component Values,
    Circuit Analysis, Validation Status, Next Steps. *)
Theorem headings_once_in_order (filename : string) (y0 : float) :
  filter (.∈ headings) (drawn_strings filename y0) = headings
  /\ NoDup headings
  /\ Forall (fun h => occurrences h (drawn_strings filename y0) = 1
                      /\ mentions h (drawn_strings filename y0) = [h]) headings.
Proof.
  split; [vm_compute; reflexivity|]. split.
  - apply (bool_decide_unpack _). vm_compute. exact I.
  - unfold headings.
    repeat (constructor; [split; vm_compute; reflexivity|]). constructor.
Qed.

(** C3: whatever the file name, each of the literals 15mA, 120mA, 150Ω and
    100kΩ occurs verbatim inside a drawn string. *)
Theorem numeric_literals_drawn (filename : string) (y0 : float) :
  Forall (fun lit => exists s pre post,
            s ∈ drawn_strings filename y0 /\ s = pre +:+ lit +:+ post) literals.
Proof.
  unfold literals.
  repeat (constructor; [apply mentioned_somewhere; vm_compute; reflexivity|]).
  constructor.
Qed.

(** C2: whatever the file name, the five body lines of the Validation
    Status section, and only they, are drawn with the green fill (0, 0.5,
    0); every string before them, the VALIDATION STATUS heading included,
    and every string after them, from the NEXT STEPS heading on, is drawn
    black; the fill is set to green right before the five lines are drawn
    and back to black right after, and changed nowhere else. *)
Theorem green_only_validation_body (filename : string) (y0 : float) :
  (exists before body after,
     drawn filename y0 = before ++ body ++ after
     /\ map t_text body = validation
     /\ Forall (fun t => t_fill t = green) body
     /\ Forall (fun t => t_fill t = black) (before ++ after)
     /\ t_text <$> last before = Some "VALIDATION STATUS"
     /\ t_text <$> head after = Some "NEXT STEPS")
  /\ green <> black
  /\ (exists pre body post,
        calls (create_schematic_pdf filename) y0
          = pre ++ [SetFillColorRGB 0 0.5 0] ++ body ++ [SetFillColorRGB 0 0 0] ++ post
        /\ Forall2 draws body validation
        /\ Forall (fun c => ~ is_fill_change c) (pre ++ post)).
Proof.
  split; [|split; [exact green_not_black|]].
  - exists (take 63 (drawn filename y0)),
           (take 5 (drop 63 (drawn filename y0))),
           (drop 68 (drawn filename y0)).
    split; [vm_compute; reflexivity|].
    split; [vm_compute; reflexivity|].
    split; [vm_compute; repeat constructor|].
    split; [vm_compute; repeat constructor|].
    split; vm_compute; reflexivity.
  - exists (take 81 (calls (create_schematic_pdf filename) y0)),
           (take 5 (drop 82 (calls (create_schematic_pdf filename) y0))),
           (drop 88 (calls (create_schematic_pdf filename) y0)).
    split; [vm_compute; reflexivity|].
    split.
    + vm_compute. repeat (constructor; [reflexivity|]). constructor.
    + vm_compute. repeat (constructor; [exact (fun H => H)|]). constructor.
Qed.

(** C10: the check mark is not reserved to the Validation Status section.
    Two body lines of the Circuit Analysis section contain it and are drawn
    once each, in black: every line of that section is drawn before the
    first change of the fill color, which is the change to green. *)
Theorem check_mark_also_drawn_black (filename : string) (y0 : float) :
  Forall (fun s =>
            s ∈ circuit_analysis
            /\ (exists pre post, s = pre +:+ "✅" +:+ post)
            /\ exists t, filter (fun t => t_text t = s) (drawn filename y0) = [t]
                         /\ t_fill t = black)
         ["  I_LED = (5V - 2V) / 200Ω = 15mA ✅"; "  Total: ~120.4mA ✅"]
  /\ Forall (fun s => contains "✅" s = true) validation
  /\ (exists pre post,
        calls (create_schematic_pdf filename) y0
          = pre ++ SetFillColorRGB 0 0.5 0 :: post
        /\ Forall (fun c => ~ is_fill_change c) pre
        /\ Forall (fun s => Exists (fun c => draws c s) pre) circuit_analysis).
Proof.
  split; [|split].
  - repeat (constructor;
            [split; [apply (bool_decide_unpack _); vm_compute; exact I|];
             split; [apply contains_split; vm_compute; reflexivity|];
             eexists; split; vm_compute; reflexivity|]).
    constructor.
  - vm_compute. repeat constructor.
  - exists (take 81 (calls (create_schematic_pdf filename) y0)),
           (drop 82 (calls (create_schematic_pdf filename) y0)).
    split; [vm_compute; reflexivity|]. split.
    + vm_compute. repeat (constructor; [exact (fun H => H)|]). constructor.
    + unfold circuit_analysis.
      repeat (constructor; [apply (bool_decide_unpack _); vm_compute; exact I|]).
      constructor.
Qed.

(** ** Layout *)

(** C4: whatever the file name, between the title block and the footer the
    renderer places its strings exactly as the layout rule says: the body
    lines of Button Input Circuit and LED Output Circuit in Courier, 0.2
    inch apart, the body lines of the five other sections in Helvetica,
    0.25 inch apart, and the cursor moved down by an extra gap before each
    heading after the first.  The diagram line height is the smaller one
    and the gap is not zero. *)
Theorem sections_follow_layout_rule (filename : string) (y0 : float) :
  (exists title sects footer,
     drawn filename y0 = title ++ sects ++ footer
     /\ map t_text title = ["PB86 8-Button Circuit Schematic";
                            "SPICE Validated: LED current 15mA, Power 120mA total";
                            "Date: January 16, 2026"]
     /\ map t_text footer = ["Generated with Claude Code via Happy Engineering";
                             "Page 1 of 1"]
     /\ map layout_rule.placed sects
        = layout_rule.place_sections true cursor_start layout_rule.sections)
  /\ map layout_rule.heading layout_rule.sections = headings
  /\ map (fun s => layout_rule.body_font (layout_rule.heading s)) layout_rule.sections
     = ["Helvetica"; "Courier"; "Courier"; "Helvetica"; "Helvetica"; "Helvetica"; "Helvetica"]
  /\ map (fun s => layout_rule.line_height (layout_rule.heading s)) layout_rule.sections
     = [0.25 * units.inch; 0.2 * units.inch; 0.2 * units.inch; 0.25 * units.inch;
        0.25 * units.inch; 0.25 * units.inch; 0.25 * units.inch]%float
  /\ PrimFloat.ltb (0.2 * units.inch) (0.25 * units.inch) = true
  /\ PrimFloat.ltb 0 layout_rule.heading_gap = true.
Proof.
  split.
  - exists (take 3 (drawn filename y0)),
           (take 70 (drop 3 (drawn filename y0))),
           (drop 73 (drawn filename y0)).
    split; [vm_compute; reflexivity|].
    split; [vm_compute; reflexivity|].
    split; vm_compute; reflexivity.
  - split; [vm_compute; reflexivity|].
    split; [vm_compute; reflexivity|].
    split; [vm_compute; reflexivity|].
    split; vm_compute; reflexivity.
Qed.

(** C9, as the code has it: the layout overflows the A4 page.  The cursor
    starts about 9.49 inches above the bottom edge and has moved down 19.3
    inches when the function is done.  The first string drawn below the
    bottom edge is the second body line of the Component Values section;
    every section string after it is below the edge too, every string
    before it and the footer are not. *)
Theorem layout_overflows_page (filename : string) (y0 : float) :
  within (0.01 * units.inch) cursor_start (9.49 * units.inch) = true
  /\ within (0.001 * units.inch) (total_decrement filename y0) (19.3 * units.inch) = true
  /\ first_below_page (drawn filename y0) = component_values !! 1
  /\ exists above below footer,
       drawn filename y0 = above ++ below ++ footer
       /\ Forall (fun t => below_page t = false) (above ++ footer)
       /\ Forall (fun t => below_page t = true) below
       /\ t_text <$> last above = component_values !! 0
       /\ map t_text below
          = drop 1 component_values
            ++ "CIRCUIT ANALYSIS" :: circuit_analysis
            ++ "VALIDATION STATUS" :: validation
            ++ "NEXT STEPS" :: next_steps
       /\ map t_text footer = ["Generated with Claude Code via Happy Engineering";
                               "Page 1 of 1"].
Proof.
  split; [vm_compute; reflexivity|].
  split; [vm_compute; reflexivity|].
  split; [vm_compute; reflexivity|].
  exists (take 40 (drawn filename y0)),
         (take 33 (drop 40 (drawn filename y0))),
         (drop 73 (drawn filename y0)).
  split; [vm_compute; reflexivity|].
  split; [vm_compute; repeat constructor|].
  split; [vm_compute; repeat constructor|].
  split; [vm_compute; reflexivity|].
  split; vm_compute; reflexivity.
Qed.

(** C9, as it was claimed: the first string below the bottom edge is not
    the third body line of Component Values, and the cursor does not move
    down 18.9 inches, not even to a tenth of an inch. *)
Lemma overflow_not_at_third_line :
  first_below_page (drawn "pb86_8button_schematic.pdf" 0) <> component_values !! 2
  /\ within (0.1 * units.inch)
            (total_decrement "pb86_8button_schematic.pdf" 0) (18.9 * units.inch) = false.
Proof.
  split; [|vm_compute; reflexivity].
  vm_compute. intros H. discriminate H.
Qed.

(** ** Running the calls *)

Lemma calls_shape (filename : string) (y0 : float) :
  calls (create_schematic_pdf filename) y0
  = CanvasNew filename pagesizes.A4
      :: drawing_calls ++ [Save; Print (confirmation filename)].
Proof. vm_compute. reflexivity. Qed.

Lemma drawing_calls_draw : Forall (fun c => is_drawing c = true) drawing_calls.
Proof. vm_compute. repeat constructor. Qed.

Lemma length_drawing_calls : length drawing_calls = 97.
Proof. vm_compute. reflexivity. Qed.

Lemma build_drawing_calls (filename : string) :
  build drawing_calls (Some (new_canvas filename pagesizes.A4))
  = Some (mkCanvas filename pagesizes.A4 "Helvetica" 8 black black 2 schematic_ops []).
Proof. vm_compute. reflexivity. Qed.

Lemma schematic_ops_not_empty : schematic_ops <> [].
Proof. vm_compute. discriminate. Qed.

Lemma build_script (filename : string) (y0 : float) :
  build (calls (create_schematic_pdf filename) y0) None
  = Some (mkCanvas filename pagesizes.A4 "Helvetica" 12 black black 1 []
                   [mkPage pagesizes.A4 schematic_ops]).
Proof. vm_compute. reflexivity. Qed.

Lemma pages_of_script (filename : string) (y0 : float) :
  pages_of (create_schematic_pdf filename) y0 = [mkPage pagesizes.A4 schematic_ops].
Proof. unfold pages_of. by rewrite build_script. Qed.

Lemma exec_app (env : Env) (cs1 cs2 : list Call) :
  forall n w,
    exec env n (cs1 ++ cs2) w
    = match exec env n cs1 w with
      | (w1, Returned) => exec env (n + length cs1) cs2 w1
      | (w1, Raised e) => (w1, Raised e)
      end.
Proof.
  induction cs1 as [|c cs1 IH]; intros n w; simpl.
  - by rewrite Nat.add_0_r.
  - destruct (step env n c w) as [e|w']; [reflexivity|].
    rewrite IH. by rewrite Nat.add_succ_r.
Qed.

Lemma step_drawing (env : Env) (n : nat) (c : Call) (w : World) (cv : CanvasState) :
  is_drawing c = true -> canvas_obj w = Some cv ->
  step env n c w
  = match lib_fault env n with
    | Some e => inl e
    | None => inr (set_canvas (draw c cv) w)
    end.
Proof.
  intros Hc Hw. destruct c; try discriminate Hc; simpl; rewrite Hw; reflexivity.
Qed.

Lemma effect_drawing (c : Call) (cv : CanvasState) :
  is_drawing c = true -> effect (Some cv) c = Some (draw c cv).
Proof. intros Hc. destruct c; try discriminate Hc; reflexivity. Qed.

(** Drawing calls that do not fail only change the canvas. *)
Lemma exec_drawing_ok (env : Env) (cs : list Call) :
  Forall (fun c => is_drawing c = true) cs ->
  forall n w cv,
    canvas_obj w = Some cv ->
    (forall j, j < length cs -> lib_fault env (n + j) = None) ->
    exec env n cs w = (mkWorld (build cs (Some cv)) (fs w) (stdout w), Returned).
Proof.
  induction 1 as [|c cs Hc _ IH]; intros n w cv Hw Hok; simpl.
  - destruct w; simpl in *. by subst.
  - rewrite (step_drawing _ _ _ _ cv Hc Hw).
    assert (H0 : lib_fault env n = None)
      by (rewrite <- (Nat.add_0_r n); apply Hok; simpl; lia).
    rewrite H0.
    unfold build. simpl. rewrite (effect_drawing _ _ Hc).
    rewrite (IH (S n) _ (draw c cv)); [reflexivity|reflexivity|].
    intros j Hj. replace (S n + j) with (n + S j) by lia.
    apply Hok. simpl. lia.
Qed.

(** The first drawing call that fails ends the run; the files and the
    standard output are as before. *)
Lemma exec_drawing_fault (env : Env) (cs : list Call) :
  Forall (fun c => is_drawing c = true) cs ->
  forall n w cv k e,
    canvas_obj w = Some cv ->
    k < length cs ->
    lib_fault env (n + k) = Some e ->
    (forall j, j < k -> lib_fault env (n + j) = None) ->
    exists w', exec env n cs w = (w', Raised e)
               /\ fs w' = fs w /\ stdout w' = stdout w.
Proof.
  induction 1 as [|c cs Hc _ IH]; intros n w cv k e Hw Hk He Hok; simpl in *.
  - lia.
  - rewrite (step_drawing _ _ _ _ cv Hc Hw).
    destruct k as [|k].
    + rewrite Nat.add_0_r in He. rewrite He. by exists w.
    + assert (H0 : lib_fault env n = None)
        by (rewrite <- (Nat.add_0_r n); apply Hok; lia).
      rewrite H0.
      destruct (IH (S n) (set_canvas (draw c cv) w) (draw c cv) k e)
        as (w' & E & Hfs & Hout).
      * reflexivity.
      * lia.
      * by replace (S n + k) with (n + S k) by lia.
      * intros j Hj. replace (S n + j) with (n + S j) by lia. apply Hok. lia.
      * exists w'. by rewrite E.
Qed.

Lemma fails_at_lib (env : Env) (filename : string) (k : nat) :
  k <> save_index -> fails_at env filename k = lib_fault env k.
Proof.
  intros Hk. unfold fails_at. destruct (lib_fault env k); [reflexivity|].
  by rewrite decide_False.
Qed.

Lemma save_index_98 : save_index = 98.
Proof. unfold save_index. by rewrite length_drawing_calls. Qed.

(** Either no library call of the run fails, or one of them is the first
    to fail. *)
Lemma first_failure (f : nat -> option exn) (n : nat) :
  (forall k, k < n -> f k = None)
  \/ exists k e, k < n /\ f k = Some e /\ forall j, j < k -> f j = None.
Proof.
  induction n as [|n [IH|(k & e & Hk & He & Hmin)]].
  - left. intros k Hk. lia.
  - destruct (f n) as [e|] eqn:E.
    + right. exists n, e. split; [lia|]. split; [exact E|exact IH].
    + left. intros k Hk. destruct (decide (k = n)) as [->|]; [exact E|].
      apply IH. lia.
  - right. exists k, e. split; [lia|]. by split.
Qed.

(** A run in which no library call fails saves the page under the given
    name and prints the confirmation. *)
Lemma run_ok (env : Env) (w : World) (filename : string) (y0 : float) :
  (forall k, k < library_calls -> fails_at env filename k = None) ->
  run env (create_schematic_pdf filename) y0 w
  = (mkWorld (build (calls (create_schematic_pdf filename) y0) None)
             (<[filename := pages_of (create_schematic_pdf filename) y0]> (fs w))
             (stdout w ++ [confirmation filename]),
     Returned).
Proof.
  intros Hok. rewrite pages_of_script, build_script.
  unfold run. rewrite calls_shape.
  unfold library_calls in Hok. rewrite save_index_98 in Hok.
  assert (Hlib : forall k, k < 98 -> lib_fault env k = None).
  { intros k Hk. rewrite <- (fails_at_lib env filename) by (rewrite save_index_98; lia).
    apply Hok. lia. }
  pose proof (Hok 98 ltac:(lia)) as Hsave. unfold fails_at in Hsave.
  destruct (lib_fault env 98) eqn:E98; [discriminate Hsave|].
  rewrite decide_True in Hsave by (by rewrite save_index_98).
  cbn [exec step]. rewrite (Hlib 0) by lia.
  rewrite exec_app.
  rewrite (exec_drawing_ok env drawing_calls drawing_calls_draw 1 _
             (new_canvas filename pagesizes.A4)).
  - rewrite build_drawing_calls, length_drawing_calls.
    cbn [exec step Nat.add canvas_obj set_canvas fs stdout cv_filename].
    rewrite E98, Hsave. reflexivity.
  - reflexivity.
  - intros j Hj. rewrite length_drawing_calls in Hj. apply Hlib. lia.
Qed.

(** A run in which a library call fails ends with the exception of the
    first call that does; no file is written and nothing is printed. *)
Lemma run_fault (env : Env) (w : World) (filename : string) (y0 : float) (k : nat) (e : exn) :
  k < library_calls ->
  fails_at env filename k = Some e ->
  (forall j, j < k -> fails_at env filename j = None) ->
  exists w', run env (create_schematic_pdf filename) y0 w = (w', Raised e)
             /\ fs w' = fs w /\ stdout w' = stdout w.
Proof.
  unfold library_calls. rewrite save_index_98. intros Hk He Hmin.
  assert (Hlib : forall j, j < k -> lib_fault env j = None).
  { intros j Hj. rewrite <- (fails_at_lib env filename) by (rewrite save_index_98; lia).
    by apply Hmin. }
  unfold run. rewrite calls_shape. cbn [exec step].
  destruct k as [|k].
  { rewrite fails_at_lib in He by (rewrite save_index_98; lia).
    rewrite He. by exists w. }
  rewrite (Hlib 0) by lia. rewrite exec_app.
  destruct (decide (S k = 98)) as [E|NE].
  - rewrite (exec_drawing_ok env drawing_calls drawing_calls_draw 1 _
               (new_canvas filename pagesizes.A4)).
    + rewrite build_drawing_calls, length_drawing_calls.
      cbn [exec step Nat.add canvas_obj set_canvas fs stdout cv_filename].
      rewrite E in He. unfold fails_at in He.
      destruct (lib_fault env 98) as [e'|].
      * injection He as ->. eexists. by split.
      * rewrite decide_True in He by (by rewrite save_index_98).
        rewrite He. eexists. by split.
    + reflexivity.
    + intros j Hj. rewrite length_drawing_calls in Hj. apply Hlib. lia.
  - rewrite fails_at_lib in He by (rewrite save_index_98; lia).
    destruct (exec_drawing_fault env drawing_calls drawing_calls_draw 1
                (set_canvas (new_canvas filename pagesizes.A4) w)
                (new_canvas filename pagesizes.A4) k e)
      as (w' & E & Hfs & Hout).
    + reflexivity.
    + rewrite length_drawing_calls. lia.
    + exact He.
    + intros j Hj. apply Hlib. lia.
    + rewrite E. exists w'. by split.
Qed.

(** A run that returns is a run in which no library call failed. *)
Lemma run_returned (env : Env) (w : World) (filename : string) (y0 : float) :
  (run env (create_schematic_pdf filename) y0 w).2 = Returned ->
  run env (create_schematic_pdf filename) y0 w
  = (mkWorld (build (calls (create_schematic_pdf filename) y0) None)
             (<[filename := pages_of (create_schematic_pdf filename) y0]> (fs w))
             (stdout w ++ [confirmation filename]),
     Returned).
Proof.
  intros Hret.
  destruct (first_failure (fails_at env filename) library_calls)
    as [Hok|(k & e & Hk & He & Hmin)].
  - by apply run_ok.
  - destruct (run_fault env w filename y0 k e Hk He Hmin) as (w' & E & _).
    rewrite E in Hret. discriminate Hret.
Qed.

Lemma step_not_print (env : Env) (n : nat) (c : Call) (w w' : World) :
  ~ is_print c -> step env n c w = inr w' -> stdout w' = stdout w.
Proof.
  intros Hc. destruct c; simpl in *; try (by destruct Hc);
    destruct (lib_fault env n); try discriminate;
    repeat (match goal with
            | |- context [match ?x with _ => _ end] => destruct x; try discriminate
            end);
    intros [= <-]; reflexivity.
Qed.

(** Calls other than [print] leave the standard output alone, however the
    run ends. *)
Lemma exec_not_print (env : Env) (cs : list Call) :
  Forall (fun c => ~ is_print c) cs ->
  forall n w, stdout (exec env n cs w).1 = stdout w.
Proof.
  induction 1 as [|c cs Hc _ IH]; intros n w; simpl; [reflexivity|].
  destruct (step env n c w) as [e|w'] eqn:E; [reflexivity|].
  rewrite IH. by apply (step_not_print env n c).
Qed.

(** ** Failure *)

(** C6: when a library call of the run fails, the creation or the writing
    of the output file in particular, the renderer raises: it does not
    return.  The exception is the one of the first call that failed, no
    file has been written and nothing has been printed. *)
Theorem io_error_propagates
    (env : Env) (w : World) (filename : string) (y0 : float) (k : nat) (e : exn) :
  k < library_calls ->
  fails_at env filename k = Some e ->
  let r := run env (create_schematic_pdf filename) y0 w in
  (exists e', r.2 = Raised e')
  /\ r.2 <> Returned
  /\ ((forall j, j < k -> fails_at env filename j = None) -> r.2 = Raised e)
  /\ fs r.1 = fs w
  /\ stdout r.1 = stdout w.
Proof.
  intros Hk He r.
  destruct (first_failure (fails_at env filename) (S k))
    as [Hok|(k' & e' & Hk' & He' & Hmin)].
  { rewrite Hok in He by lia. discriminate He. }
  destruct (run_fault env w filename y0 k' e' ltac:(lia) He' Hmin)
    as (w' & E & Hfs & Hout).
  subst r. rewrite E. simpl.
  split; [by exists e'|]. split; [discriminate|]. split; [|by split].
  intros Hmin'.
  destruct (decide (k' = k)) as [->|NE].
  - rewrite He in He'. by injection He' as ->.
  - rewrite Hmin' in He' by lia. discriminate He'.
Qed.

Lemma io_error_propagates_witness :
  98 < library_calls
  /\ fails_at env_unwritable "pb86_8button_schematic.pdf" 98
     = Some (OSError "Permission denied")
  /\ (forall j, j < 98 -> fails_at env_unwritable "pb86_8button_schematic.pdf" j = None)
  /\ let r := run env_unwritable (create_schematic_pdf "pb86_8button_schematic.pdf")
                  0 empty_world in
     r.2 = Raised (OSError "Permission denied") /\ fs r.1 = ∅ /\ stdout r.1 = [].
Proof.
  assert (H1 : 98 < library_calls) by (vm_compute; lia).
  assert (H2 : fails_at env_unwritable "pb86_8button_schematic.pdf" 98
               = Some (OSError "Permission denied")) by (vm_compute; reflexivity).
  assert (H3 : forall j, j < 98 ->
               fails_at env_unwritable "pb86_8button_schematic.pdf" j = None).
  { intros j Hj. unfold fails_at. simpl. rewrite save_index_98.
    destruct (decide (j = 98)); [lia|reflexivity]. }
  split; [exact H1|]. split; [exact H2|]. split; [exact H3|].
  destruct (io_error_propagates env_unwritable empty_world
              "pb86_8button_schematic.pdf" 0 98 (OSError "Permission denied") H1 H2)
    as (_ & _ & Hr & Hfs & Hout).
  split; [exact (Hr H3)|]. split; [exact Hfs|exact Hout].
Defined.

Lemma quiet_before_print (filename : string) :
  Forall (fun c => ~ is_print c)
         (CanvasNew filename pagesizes.A4 :: drawing_calls ++ [Save]).
Proof.
  constructor; [exact (fun H => H)|].
  apply Forall_app. split.
  - eapply Forall_impl; [exact drawing_calls_draw|].
    intros c Hc Hp. destruct c; try (by destruct Hp); discriminate Hc.
  - constructor; [exact (fun H => H)|constructor].
Qed.

Lemma length_calls (filename : string) (y0 : float) :
  length (calls (create_schematic_pdf filename) y0) = 100.
Proof. vm_compute. reflexivity. Qed.

(** ** Order of the effects *)

(** C7: at every point of every run, the confirmation line has been printed
    only if the document has been saved under the given name before.  The
    standard output after the first [n] calls is what it was, or it is what
    it was followed by the one confirmation line; in the latter case the
    file holds the document and no call has raised.  A run that raises,
    before or in [save], has printed nothing.  In the function, [print] is
    the last call and [save] the one before it, and there is no other
    [print] and no other [save]. *)
Theorem confirmation_only_after_save
    (env : Env) (w : World) (filename : string) (y0 : float) (n : nat) :
  let r := exec env 0 (take n (calls (create_schematic_pdf filename) y0)) w in
  (stdout r.1 = stdout w
   \/ (stdout r.1 = stdout w ++ [confirmation filename]
       /\ fs r.1 !! filename = Some (pages_of (create_schematic_pdf filename) y0)
       /\ r.2 = Returned))
  /\ (forall e, r.2 = Raised e -> stdout r.1 = stdout w)
  /\ (exists pre,
        calls (create_schematic_pdf filename) y0
          = pre ++ [Save; Print (confirmation filename)]
        /\ Forall (fun c => ~ is_print c /\ ~ is_save c) pre).
Proof.
  intros r. subst r.
  assert (Hscript : exists pre,
            calls (create_schematic_pdf filename) y0
              = pre ++ [Save; Print (confirmation filename)]
            /\ Forall (fun c => ~ is_print c /\ ~ is_save c) pre).
  { exists (CanvasNew filename pagesizes.A4 :: drawing_calls).
    split; [by rewrite calls_shape|].
    constructor; [split; exact (fun H => H)|].
    eapply Forall_impl; [exact drawing_calls_draw|].
    intros c Hc. split; intros Hp; destruct c; try (by destruct Hp); discriminate Hc. }
  destruct (decide (n <= 99)) as [Hn|Hn].
  - assert (E : take n (calls (create_schematic_pdf filename) y0)
                = take n (CanvasNew filename pagesizes.A4 :: drawing_calls ++ [Save])).
    { rewrite calls_shape.
      change (CanvasNew filename pagesizes.A4
                :: drawing_calls ++ [Save; Print (confirmation filename)])
        with (CanvasNew filename pagesizes.A4
                :: drawing_calls ++ [Save] ++ [Print (confirmation filename)]).
      rewrite app_assoc, app_comm_cons. apply take_app_le.
      cbn [length]. rewrite length_app, length_drawing_calls. cbn [length]. lia. }
    rewrite E.
    assert (Hout : stdout (exec env 0
                     (take n (CanvasNew filename pagesizes.A4 :: drawing_calls ++ [Save]))
                     w).1 = stdout w).
    { apply exec_not_print, Forall_take, quiet_before_print. }
    split; [by left|]. split; [by intros e _|exact Hscript].
  - rewrite take_ge by (rewrite length_calls; lia).
    fold (run env (create_schematic_pdf filename) y0 w).
    destruct (first_failure (fails_at env filename) library_calls)
      as [Hok|(k & e & Hk & He & Hmin)].
    + rewrite (run_ok env w filename y0 Hok). simpl.
      split; [right|split; [intros e H; discriminate H|exact Hscript]].
      split; [reflexivity|]. split; [apply lookup_insert_eq|reflexivity].
    + destruct (run_fault env w filename y0 k e Hk He Hmin) as (w' & E & _ & Hout).
      rewrite E. simpl.
      split; [by left|]. split; [by intros e' _|exact Hscript].
Qed.

(** ** The document *)

(** C8: the entry point calls the renderer with the file name
    pb86_8button_schematic.pdf and nothing else.  The document the renderer
    hands to [save] has, for any file name, exactly one page, of size A4
    (210mm by 297mm, within a point of 595 by 842), and something is drawn
    on it; a run of the entry point that returns has written that document
    under that name and has touched no other file. *)
Theorem main_writes_one_A4_page (env : Env) (w : World) (y0 : float) :
  (run env main y0 w).2 = Returned ->
  main = create_schematic_pdf "pb86_8button_schematic.pdf"
  /\ head (calls main y0) = Some (CanvasNew "pb86_8button_schematic.pdf" pagesizes.A4)
  /\ (forall filename,
        exists ops, ops <> []
          /\ pages_of (create_schematic_pdf filename) y0 = [mkPage pagesizes.A4 ops])
  /\ pagesizes.A4 = ((210 * units.mm)%float, (297 * units.mm)%float)
  /\ within 1 (fst pagesizes.A4) 595 = true
  /\ within 1 (snd pagesizes.A4) 842 = true
  /\ fs (run env main y0 w).1 !! "pb86_8button_schematic.pdf" = Some (pages_of main y0)
  /\ (forall path, path <> "pb86_8button_schematic.pdf" ->
        fs (run env main y0 w).1 !! path = fs w !! path).
Proof.
  intros Hret. unfold main in *.
  rewrite (run_returned env w _ y0 Hret). simpl.
  split; [reflexivity|]. split; [vm_compute; reflexivity|].
  split.
  { intros filename. exists schematic_ops.
    split; [exact schematic_ops_not_empty|apply pages_of_script]. }
  split; [reflexivity|].
  split; [vm_compute; reflexivity|]. split; [vm_compute; reflexivity|].
  split; [apply lookup_insert_eq|].
  intros path Hpath. by apply lookup_insert_ne.
Qed.

Lemma main_writes_one_A4_page_witness :
  (run env_ok main 0 empty_world).2 = Returned
  /\ fs (run env_ok main 0 empty_world).1 !! "pb86_8button_schematic.pdf"
     = Some (pages_of main 0)
  /\ length (pages_of main 0) = 1.
Proof.
  assert (H : (run env_ok main 0 empty_world).2 = Returned)
    by (vm_compute; reflexivity).
  split; [exact H|].
  destruct (main_writes_one_A4_page env_ok empty_world 0 H)
    as (_ & _ & _ & _ & _ & _ & Hfile & _).
  split; [exact Hfile|vm_compute; reflexivity].
Defined.

(** ** Determinism *)

(** C5: two runs of the renderer on the same path that both return, in
    whatever worlds and whatever the local [y] held before, make the same
    calls and leave the same document under that path.  The drawing calls
    do not even depend on the path.  The only drawn string that mentions a
    date is the fixed line with January 16, 2026. *)
Theorem rendering_deterministic
    (env env' : Env) (w w' : World) (filename : string) (y0 y0' : float) :
  (run env (create_schematic_pdf filename) y0 w).2 = Returned ->
  (run env' (create_schematic_pdf filename) y0' w').2 = Returned ->
  calls (create_schematic_pdf filename) y0 = calls (create_schematic_pdf filename) y0'
  /\ (forall filename',
        List.filter is_drawing (calls (create_schematic_pdf filename') y0')
        = List.filter is_drawing (calls (create_schematic_pdf filename) y0)
        /\ drawn filename' y0' = drawn filename y0)
  /\ fs (run env (create_schematic_pdf filename) y0 w).1 !! filename
     = fs (run env' (create_schematic_pdf filename) y0' w').1 !! filename
  /\ fs (run env (create_schematic_pdf filename) y0 w).1 !! filename
     = Some [mkPage pagesizes.A4 schematic_ops]
  /\ mentions "Date" (drawn_strings filename y0) = ["Date: January 16, 2026"]
  /\ mentions "2026" (drawn_strings filename y0) = ["Date: January 16, 2026"]
  /\ mentions "January" (drawn_strings filename y0) = ["Date: January 16, 2026"].
Proof.
  intros Hret Hret'.
  rewrite (run_returned env w filename y0 Hret).
  rewrite (run_returned env' w' filename y0' Hret').
  rewrite !pages_of_script. simpl.
  split; [vm_compute; reflexivity|].
  split; [intros filename'; split; vm_compute; reflexivity|].
  rewrite !lookup_insert_eq.
  split; [reflexivity|]. split; [reflexivity|].
  split; [vm_compute; reflexivity|]. split; vm_compute; reflexivity.
Qed.

Lemma rendering_deterministic_witness :
  (run env_ok (create_schematic_pdf "pb86_8button_schematic.pdf") 0 empty_world).2
    = Returned
  /\ (run env_ok (create_schematic_pdf "pb86_8button_schematic.pdf") 1 used_world).2
     = Returned
  /\ fs (run env_ok (create_schematic_pdf "pb86_8button_schematic.pdf") 0 empty_world).1
       !! "pb86_8button_schematic.pdf"
     = fs (run env_ok (create_schematic_pdf "pb86_8button_schematic.pdf") 1 used_world).1
         !! "pb86_8button_schematic.pdf".
Proof.
  assert (H : (run env_ok (create_schematic_pdf "pb86_8button_schematic.pdf")
                   0 empty_world).2 = Returned) by (vm_compute; reflexivity).
  assert (H' : (run env_ok (create_schematic_pdf "pb86_8button_schematic.pdf")
                    1 used_world).2 = Returned) by (vm_compute; reflexivity).
  split; [exact H|]. split; [exact H'|].
  destruct (rendering_deterministic env_ok env_ok empty_world used_world
              "pb86_8button_schematic.pdf" 0 1 H H') as (_ & _ & Hfile & _).
  exact Hfile.
Defined.

(** * Further properties of the renderer *)

(** ** The body loop *)

Lemma calls_bind {A B : Type} (m : Script A) (f : A -> Script B) (y0 : float) :
  calls (m ≫= f) y0 = calls m y0 ++ calls (f (m y0).1.1) (final_y m y0).
Proof.
  unfold calls, final_y, mbind, Script_bind.
  destruct (m y0) as [[a y1] t1]. simpl.
  destruct (f a y1) as [[b y2] t2]. reflexivity.
Qed.

Lemma final_y_bind {A B : Type} (m : Script A) (f : A -> Script B) (y0 : float) :
  final_y (m ≫= f) y0 = final_y (f (m y0).1.1) (final_y m y0).
Proof.
  unfold final_y, mbind, Script_bind.
  destruct (m y0) as [[a y1] t1]. simpl.
  destruct (f a y1) as [[b y2] t2]. reflexivity.
Qed.

Lemma body_loop_cons (d : float) (l : string) (lines : list string) (y0 : float) :
  calls (body_loop d (l :: lines)) y0
  = DrawString (1.2 * units.inch)%float y0 l :: calls (body_loop d lines) (y0 - d)%float
  /\ final_y (body_loop d (l :: lines)) y0 = final_y (body_loop d lines) (y0 - d)%float.
Proof.
  unfold body_loop. cbn [for_]. split.
  - rewrite calls_bind. reflexivity.
  - rewrite final_y_bind. reflexivity.
Qed.

Lemma calls_body_loop (d : float) (lines : list string) :
  forall y, calls (body_loop d lines) y
            = zip_with (fun y l => DrawString (1.2 * units.inch)%float y l)
                       (cursor_positions d y (length lines)) lines.
Proof.
  induction lines as [|l lines IH]; intros y; [reflexivity|].
  destruct (body_loop_cons d l lines y) as [-> _]. rewrite IH. reflexivity.
Qed.

Lemma final_y_body_loop (d : float) (lines : list string) :
  forall y, final_y (body_loop d lines) y
            = fold_left (fun y _ => (y - d)%float) lines y.
Proof.
  induction lines as [|l lines IH]; intros y; [reflexivity|].
  destruct (body_loop_cons d l lines y) as [_ ->]. rewrite IH. reflexivity.
Qed.

Ltac loop_at i n :=
  match goal with
  | |- exists pre post y, ?cs = _ =>
      exists (take i cs), (drop (i + n) cs), (drawn_at cs i);
      vm_compute; reflexivity
  end.

(** X1: the body loop, for any lines, line height and cursor, makes one
    drawString call per line, blank lines included, in the order of the
    list, at the indent of 1.2 inch and at the cursor values obtained by
    subtracting the line height once per line; with no lines it makes no
    call and leaves the cursor alone.  Between its other calls the renderer
    makes, for each of the seven sections, exactly the calls of this loop
    on the lines of the section with the line height of the section. *)
Theorem body_loop_draws_each_line (d : float) (lines : list string) (y0 : float) :
  calls (body_loop d lines) y0
  = zip_with (fun y l => DrawString (1.2 * units.inch)%float y l)
             (cursor_positions d y0 (length lines)) lines
  /\ final_y (body_loop d lines) y0 = fold_left (fun y _ => (y - d)%float) lines y0
  /\ length (calls (body_loop d lines) y0) = length lines
  /\ (lines = [] -> calls (body_loop d lines) y0 = [] /\ final_y (body_loop d lines) y0 = y0)
  /\ forall filename y1,
       Forall (fun s => exists pre post y,
                 calls (create_schematic_pdf filename) y1
                 = pre ++ calls (body_loop (layout_rule.line_height (layout_rule.heading s))
                                           (layout_rule.body s)) y ++ post)
              layout_rule.sections.
Proof.
  split; [apply calls_body_loop|]. split; [apply final_y_body_loop|]. split.
  { rewrite calls_body_loop. revert y0.
    induction lines as [|l lines IH]; intros y0; [reflexivity|].
    cbn [length cursor_positions zip_with]. by rewrite IH. }
  split; [by intros ->|].
  intros filename y1. unfold layout_rule.sections.
  constructor; [loop_at 12 11|]. constructor; [loop_at 26 10|].
  constructor; [loop_at 39 11|]. constructor; [loop_at 53 10|].
  constructor; [loop_at 66 12|]. constructor; [loop_at 82 5|].
  constructor; [loop_at 91 4|]. constructor.
Qed.

(** ** What a run leaves behind *)

(** X2: a run that returns, for any file name and in any world, replaces
    whatever the target path held by the one-page document, leaves every
    other path as it was, adds no path but the target, and appends exactly
    one line, the confirmation with the file name, to what was printed
    before. *)
Theorem run_replaces_only_target
    (env : Env) (w : World) (filename : string) (y0 : float) :
  (run env (create_schematic_pdf filename) y0 w).2 = Returned ->
  let w' := (run env (create_schematic_pdf filename) y0 w).1 in
  fs w' !! filename = Some [mkPage pagesizes.A4 (page_content filename y0)]
  /\ (forall path, path <> filename -> fs w' !! path = fs w !! path)
  /\ dom (fs w') = {[filename]} ∪ dom (fs w)
  /\ stdout w' = stdout w ++ ["PDF created: " +:+ filename].
Proof.
  intros Hret w'. subst w'. rewrite (run_returned env w filename y0 Hret).
  unfold page_content. rewrite pages_of_script. cbn [fst fs stdout map page_ops concat].
  rewrite app_nil_r.
  split; [apply lookup_insert_eq|].
  split; [intros path Hpath; by apply lookup_insert_ne|].
  split; [apply dom_insert_L|reflexivity].
Qed.

Lemma run_replaces_only_target_witness :
  (run env_ok (create_schematic_pdf "pb86_8button_schematic.pdf") 0 used_world).2
    = Returned
  /\ fs used_world !! "pb86_8button_schematic.pdf" = Some []
  /\ fs (run env_ok (create_schematic_pdf "pb86_8button_schematic.pdf") 0 used_world).1
       !! "pb86_8button_schematic.pdf"
     = Some [mkPage pagesizes.A4 (page_content "pb86_8button_schematic.pdf" 0)]
  /\ stdout (run env_ok (create_schematic_pdf "pb86_8button_schematic.pdf") 0 used_world).1
     = ["earlier output"; "PDF created: pb86_8button_schematic.pdf"].
Proof.
  assert (H : (run env_ok (create_schematic_pdf "pb86_8button_schematic.pdf")
                   0 used_world).2 = Returned) by (vm_compute; reflexivity).
  split; [exact H|]. split; [vm_compute; reflexivity|].
  destruct (run_replaces_only_target env_ok used_world
              "pb86_8button_schematic.pdf" 0 H) as (Hfile & _ & _ & Hout).
  split; [exact Hfile|exact Hout].
Defined.

(** X3: a second run in the world the first one left, on the same or on
    another file name, starts from a new canvas.  When both runs return,
    both paths hold the same one-page document, nothing of the first run
    is carried into the second document, a second run on the same name
    leaves the file system as the first one left it, and the two
    confirmation lines follow what was printed before, in the order of the
    runs. *)
Theorem second_run_starts_afresh
    (env env' : Env) (w : World) (filename filename' : string) (y0 y0' : float) :
  (run env (create_schematic_pdf filename) y0 w).2 = Returned ->
  (run env' (create_schematic_pdf filename') y0'
       (run env (create_schematic_pdf filename) y0 w).1).2 = Returned ->
  let w1 := (run env (create_schematic_pdf filename) y0 w).1 in
  let w2 := (run env' (create_schematic_pdf filename') y0' w1).1 in
  fs w2 !! filename = Some (pages_of (create_schematic_pdf filename) y0)
  /\ fs w2 !! filename' = Some (pages_of (create_schematic_pdf filename) y0)
  /\ length (pages_of (create_schematic_pdf filename) y0) = 1
  /\ (filename' = filename -> fs w2 = fs w1)
  /\ stdout w2 = stdout w ++ [confirmation filename; confirmation filename'].
Proof.
  intros Hret Hret' w1 w2. subst w2 w1. revert Hret'.
  rewrite (run_returned env w filename y0 Hret). cbn [fst]. intros Hret'.
  rewrite (run_returned env' _ filename' y0' Hret').
  rewrite !pages_of_script. cbn [fst fs stdout].
  split.
  { destruct (decide (filename = filename')) as [->|NE].
    - apply lookup_insert_eq.
    - rewrite lookup_insert_ne by congruence. apply lookup_insert_eq. }
  split; [apply lookup_insert_eq|]. split; [reflexivity|].
  split; [intros ->; apply insert_insert_eq|].
  by rewrite <- app_assoc.
Qed.

Lemma second_run_starts_afresh_witness :
  let w1 := (run env_ok (create_schematic_pdf "a.pdf") 0 empty_world).1 in
  let w2 := (run env_ok (create_schematic_pdf "b.pdf") 0 w1).1 in
  (run env_ok (create_schematic_pdf "a.pdf") 0 empty_world).2 = Returned
  /\ (run env_ok (create_schematic_pdf "b.pdf") 0 w1).2 = Returned
  /\ fs w2 !! "a.pdf" = fs w2 !! "b.pdf"
  /\ stdout w2 = ["PDF created: a.pdf"; "PDF created: b.pdf"].
Proof.
  intros w1 w2.
  assert (H : (run env_ok (create_schematic_pdf "a.pdf") 0 empty_world).2 = Returned)
    by (vm_compute; reflexivity).
  assert (H' : (run env_ok (create_schematic_pdf "b.pdf") 0 w1).2 = Returned)
    by (vm_compute; reflexivity).
  split; [exact H|]. split; [exact H'|].
  destruct (second_run_starts_afresh env_ok env_ok empty_world "a.pdf" "b.pdf" 0 0 H H')
    as (Ha & Hb & _ & _ & Hout).
  split; [|exact Hout].
  subst w2 w1. rewrite Ha, Hb. reflexivity.
Defined.

(** ** The page *)

(** X4: whatever the file name, the strings of the flow, from the title to
    the last line of Next Steps, are drawn from the top down: each lies at
    least 14.39 points (the 0.2 inch line height, up to rounding) below the
    one before, which is more than the font size of any string after the
    title.  The rounding is real: the cursor does not move by a full 14.4
    points everywhere. *)
Theorem flow_runs_top_down (filename : string) (y0 : float) :
  drawn filename y0 = flow filename y0 ++ drop 73 (drawn filename y0)
  /\ map t_text (drop 73 (drawn filename y0)) = footer_strings
  /\ spaced 14.39 (flow filename y0) = true
  /\ spaced 14.4 (flow filename y0) = false
  /\ Forall (fun t => (t_size t <= 14)%Z) (tail (flow filename y0))
  /\ t_text <$> head (flow filename y0) = Some "PB86 8-Button Circuit Schematic".
Proof.
  split; [vm_compute; reflexivity|]. split; [vm_compute; reflexivity|].
  split; [vm_compute; reflexivity|]. split; [vm_compute; reflexivity|].
  split; [|vm_compute; reflexivity].
  vm_compute. repeat (constructor; [discriminate|]). constructor.
Qed.

(** X5: the footer is drawn at a fixed half inch above the bottom edge,
    and the flow does not keep clear of it: the COMPONENT VALUES heading is
    drawn at the same left margin with its baseline about four points
    below the footer's, less than the font size of either string, so the
    two strings are printed over each other. *)
Theorem footer_runs_into_component_heading (filename : string) (y0 : float) :
  exists f h,
    f ∈ drawn filename y0 /\ h ∈ drawn filename y0
    /\ t_text f = "Generated with Claude Code via Happy Engineering"
    /\ t_text h = "COMPONENT VALUES"
    /\ t_x f = t_x h
    /\ t_y f = (0.5 * units.inch)%float
    /\ PrimFloat.ltb (t_y h) (t_y f) = true
    /\ within 4.2 (t_y f) (t_y h) = true
    /\ t_size f = 8%Z /\ t_size h = 14%Z.
Proof.
  destruct (drawn filename y0 !! 73) as [f|] eqn:Ef; [|vm_compute in Ef; discriminate Ef].
  destruct (drawn filename y0 !! 38) as [h|] eqn:Eh; [|vm_compute in Eh; discriminate Eh].
  exists f, h.
  split; [by eapply list_elem_of_lookup_2|]. split; [by eapply list_elem_of_lookup_2|].
  vm_compute in Ef. vm_compute in Eh.
  injection Ef as <-. injection Eh as <-.
  repeat (split; [vm_compute; reflexivity|]). vm_compute; reflexivity.
Qed.

(** X6: whatever the file name, the page holds exactly one line, the
    divider: horizontal, black, two points wide, from one inch inside the
    left edge to one inch inside the right edge, drawn after the date line
    and before the first heading, and lying between the two. *)
Theorem one_divider_line (filename : string) (y0 : float) :
  let width := fst pagesizes.A4 in
  let height := snd pagesizes.A4 in
  let rule := OpLine (1 * units.inch) (height - 1.7 * units.inch)
                     (width - 1 * units.inch) (height - 1.7 * units.inch) black 2 in
  List.filter is_line (page_content filename y0) = [rule]
  /\ (exists before after,
        page_content filename y0 = before ++ rule :: after
        /\ map t_text (texts before)
           = ["PB86 8-Button Circuit Schematic";
              "SPICE Validated: LED current 15mA, Power 120mA total";
              "Date: January 16, 2026"]
        /\ Forall (fun t => PrimFloat.ltb (height - 1.7 * units.inch) (t_y t) = true)
                  (texts before)
        /\ Forall (fun t => PrimFloat.ltb (t_y t) (height - 1.7 * units.inch) = true)
                  (texts after)
        /\ t_text <$> head (texts after) = Some "CIRCUIT OVERVIEW")
  /\ PrimFloat.ltb 0 (1 * units.inch) = true
  /\ PrimFloat.ltb (1 * units.inch) (width - 1 * units.inch) = true
  /\ PrimFloat.ltb (width - 1 * units.inch) width = true
  /\ within 0.001 (width - (width - 1 * units.inch)) (1 * units.inch) = true.
Proof.
  intros width height rule. subst rule width height.
  split; [vm_compute; reflexivity|]. split.
  - exists (take 3 (page_content filename y0)), (drop 4 (page_content filename y0)).
    split; [vm_compute; reflexivity|]. split; [vm_compute; reflexivity|].
    split; [vm_compute; repeat constructor|].
    split; [vm_compute; repeat constructor|]. vm_compute; reflexivity.
  - split; [vm_compute; reflexivity|]. split; [vm_compute; reflexivity|].
    split; vm_compute; reflexivity.
Qed.

(** X7: whatever the file name, every string starts inside the page
    horizontally, at one of three places: the one inch margin, the body
    indent of 1.2 inch, or, for the page count alone, 2.5 inch left of the
    right edge.  The title block (bold 16 point title, 12 point subtitle
    and date) is drawn one inch, 1.3 inch and 1.5 inch below the top edge,
    and the two footer strings in 8 point on one baseline. *)
Theorem strings_start_inside_page (filename : string) (y0 : float) :
  let width := fst pagesizes.A4 in
  let height := snd pagesizes.A4 in
  Forall (fun t => (t_x t = (1 * units.inch)%float
                    \/ t_x t = (1.2 * units.inch)%float
                    \/ (t_x t = (width - 2.5 * units.inch)%float /\ t_text t = "Page 1 of 1"))
                   /\ PrimFloat.ltb 0 (t_x t) = true
                   /\ PrimFloat.ltb (t_x t) width = true)
         (drawn filename y0)
  /\ map (fun t => (t_x t, t_y t, t_font t, t_size t)) (take 3 (drawn filename y0))
     = [((1 * units.inch)%float, (height - 1 * units.inch)%float, "Helvetica-Bold", 16%Z);
        ((1 * units.inch)%float, (height - 1.3 * units.inch)%float, "Helvetica", 12%Z);
        ((1 * units.inch)%float, (height - 1.5 * units.inch)%float, "Helvetica", 12%Z)]
  /\ map (fun t => (t_x t, t_y t, t_font t, t_size t, t_text t)) (drop 73 (drawn filename y0))
     = [((1 * units.inch)%float, (0.5 * units.inch)%float, "Helvetica", 8%Z,
         "Generated with Claude Code via Happy Engineering");
        ((width - 2.5 * units.inch)%float, (0.5 * units.inch)%float, "Helvetica", 8%Z,
         "Page 1 of 1")].
Proof.
  intros width height. subst width height.
  split; [|split; vm_compute; reflexivity].
  vm_compute.
  repeat (constructor;
          [split; [first [left; reflexivity
                         |right; left; reflexivity
                         |right; right; split; reflexivity]
                  |split; reflexivity]|]).
  constructor.
Qed.

(** X8: whatever the file name, every string is drawn in one of the built-in
    faces Helvetica, Helvetica-Bold and Courier, in one of six pairings of
    face and size, each of which is used; the renderer selects no other
    font, although 29 of its 75 strings, 17 of them diagram lines in
    Courier, contain characters outside ASCII. *)
Theorem built_in_fonts_only (filename : string) (y0 : float) :
  Forall (fun t => (t_font t, t_size t) ∈ type_faces) (drawn filename y0)
  /\ Forall (fun p => Exists (fun t => (t_font t, t_size t) = p) (drawn filename y0))
            type_faces
  /\ Forall (fun c => forall f n, c = SetFont f n ->
                      f ∈ ["Helvetica"; "Helvetica-Bold"; "Courier"])
            (calls (create_schematic_pdf filename) y0)
  /\ length (drawn filename y0) = 75
  /\ length (List.filter (fun t => negb (is_ascii (t_text t))) (drawn filename y0)) = 29
  /\ length (List.filter (fun t => negb (is_ascii (t_text t)) && String.eqb (t_font t) "Courier")
                         (drawn filename y0)) = 17.
Proof.
  split; [apply (bool_decide_unpack _); vm_compute; exact I|].
  split; [apply (bool_decide_unpack _); vm_compute; exact I|].
  split.
  { vm_compute.
    repeat (constructor;
            [intros f n H;
             first [discriminate H | injection H as <- <-; repeat constructor]|]).
    constructor. }
  split; [vm_compute; reflexivity|]. split; vm_compute; reflexivity.
Qed.
